(** * iamclient: the user session controller (src/lib/contexts/user-context.tsx)

    A shallow embedding of the [UserProvider] component: the controller
    state held by [useState], the cookie jar behind [cookies-next], the
    IAM server reached through [fetch], and the router.  The async
    functions of the provider are written in a small monad that threads
    the browser state and carries JavaScript exceptions, so that
    [try]/[catch]/[finally] read as in the source. *)

From stdpp Require Import base strings list gmap.

Local Open Scope string_scope.
#[local] Set Warnings "-register-all".

(** ** Values *)

(** A value produced by [res.json()].  Numbers are kept as integers: the
    code only ever asks whether a value is truthy. *)
Inductive json : Type :=
  | JNull
  | JBool (b : bool)
  | JNum (z : Z)
  | JStr (s : string)
  | JArr (items : list json)
  | JObj (fields : list (string * json)).

(** JavaScript truthiness of a string: every string but the empty one. *)
Definition truthy_string (s : string) : bool :=
  match s with
  | EmptyString => false
  | String _ _ => true
  end.

(** Truthiness of [string | undefined]. *)
Definition truthy_opt (o : option string) : bool :=
  match o with
  | Some s => truthy_string s
  | None => false
  end.

(** Truthiness of a parsed JSON value. *)
Definition truthy (v : json) : bool :=
  match v with
  | JNull => false
  | JBool b => b
  | JNum z => negb (Z.eqb z 0)
  | JStr s => truthy_string s
  | JArr _ => true
  | JObj _ => true
  end.

(** Own-property lookup in an object literal. *)
Fixpoint assoc (k : string) (fields : list (string * json)) : option json :=
  match fields with
  | [] => None
  | (k', v) :: rest => if String.eqb k k' then Some v else assoc k rest
  end.

(** ** Exceptions *)

Inductive JsError : Type :=
  | NetworkFailure               (* fetch rejects: transport error *)
  | SyntaxError                  (* res.json() rejects: body is not JSON *)
  | TypeError                    (* property read on null *)
  | Error (message : string).    (* new Error(message) *)

(** ** HTTP *)

Inductive Method : Type := GET | POST.

(** The second argument of [fetch].  [req_body] holds the value handed to
    [JSON.stringify]. *)
Record Request : Type := mkRequest {
  req_method : Method;
  req_url : string;
  req_headers : list (string * string);
  req_body : option json
}.

(** What the code reads of a [Response]: the status (for [res.ok]) and
    the outcome of [res.json()], [None] when the body does not parse. *)
Record Response : Type := mkResponse {
  status : Z;
  body : option json
}.

Definition ok (res : Response) : bool :=
  (200 <=? status res)%Z && (status res <=? 299)%Z.

(** How a request settles.  A request that never settles leaves the
    operation pending for ever; such runs are not described, and every
    statement below is about operations whose requests settle. *)
Inductive FetchOutcome : Type :=
  | Rejected                     (* the promise returned by fetch rejects *)
  | Responded (res : Response).

(** ** Browser state *)

Inductive Navigation : Type :=
  | Push (url : string)          (* router.push *)
  | Replace (url : string).      (* router.replace *)

(** One call of [setCookie]: key, value and the [maxAge] option. *)
Record CookieWrite : Type := mkCookieWrite {
  cw_key : string;
  cw_value : string;
  cw_maxAge : option Z
}.

(** One call of a state setter: [setUser(u)] or [setIsLoading(b)]. *)
Inductive StateWrite : Type :=
  | WriteUser (u : option json)
  | WriteIsLoading (b : bool).

(** The two [useState] cells of the provider. *)
Record Controller : Type := mkController {
  c_user : option json;
  c_isLoading : bool
}.

(** Everything the provider's functions read or write.  [user] and
    [isLoading] hold the values last handed to the setters.  The logs
    ([requests], [navigation], [console], [cookieWrites], [trace],
    [writes]) grow at the head: the most recent entry comes first.
    [writes] receives every call of a setter.  [trace] receives the two
    cells, as last written, after every primitive step of the operation
    that runs; when React renders them is not described. *)
Record World : Type := mkWorld {
  user : option json;
  isLoading : bool;
  cookies : gmap string string;
  requests : list Request;
  navigation : list Navigation;
  console : list (string * JsError);
  cookieWrites : list CookieWrite;
  trace : list Controller;
  writes : list StateWrite
}.

Definition controller (w : World) : Controller :=
  mkController (user w) (isLoading w).

(** Provider state at mount: [useState(null)] and [useState(true)]. *)
Definition mount (jar : gmap string string) : World :=
  mkWorld None true jar [] [] [] [] [] [].

(** ** The monad of async functions *)

Inductive Completion (A : Type) : Type :=
  | Normal (a : A)
  | Throw (e : JsError).
Arguments Normal {A} a.
Arguments Throw {A} e.

(** An async function followed from its call to the settling of its
    promise, with no other operation in flight meanwhile: the function
    takes the browser state at the call and returns the completion and
    the state then.  State changes made before an exception survive it,
    so the world is returned on both completions.  What two operations
    in flight together do to each other is not described. *)
Definition Js (A : Type) : Type := World -> Completion A * World.

Definition ret {A} (a : A) : Js A := fun w => (Normal a, w).

Definition bind {A B} (m : Js A) (k : A -> Js B) : Js B :=
  fun w =>
    match m w with
    | (Normal a, w') => k a w'
    | (Throw e, w') => (Throw e, w')
    end.

Definition throw {A} (e : JsError) : Js A := fun w => (Throw e, w).

Definition try_catch {A} (block : Js A) (handler : JsError -> Js A) : Js A :=
  fun w =>
    match block w with
    | (Normal a, w') => (Normal a, w')
    | (Throw e, w') => handler e w'
    end.

(** [try { block } finally { cleanup }]: the cleanup runs on both
    completions and the completion of the block is kept unless the
    cleanup itself throws. *)
Definition try_finally {A} (block : Js A) (cleanup : Js unit) : Js A :=
  fun w =>
    match block w with
    | (c, w') =>
        match cleanup w' with
        | (Normal _, w'') => (c, w'')
        | (Throw e, w'') => (Throw e, w'')
        end
    end.

Declare Scope js_scope.
Delimit Scope js_scope with js.
Notation "x <- m ;; k" := (bind m (fun x => k))
  (at level 100, m at next level, right associativity) : js_scope.
Notation "m ;; k" := (bind m (fun _ => k))
  (at level 100, right associativity) : js_scope.
Local Open Scope js_scope.

Definition exec {A} (m : Js A) (w : World) : World := snd (m w).
Definition result {A} (m : Js A) (w : World) : Completion A := fst (m w).

(** ** Primitive steps *)

(** Append the two cells, as last written, to the trace. *)
Definition observe (w : World) : World :=
  mkWorld (user w) (isLoading w) (cookies w) (requests w) (navigation w)
          (console w) (cookieWrites w) (controller w :: trace w) (writes w).

Definition setUser (u : option json) : Js unit :=
  fun w =>
    (Normal tt,
     observe (mkWorld u (isLoading w) (cookies w) (requests w) (navigation w)
                      (console w) (cookieWrites w) (trace w)
                      (WriteUser u :: writes w))).

Definition setIsLoading (b : bool) : Js unit :=
  fun w =>
    (Normal tt,
     observe (mkWorld (user w) b (cookies w) (requests w) (navigation w)
                      (console w) (cookieWrites w) (trace w)
                      (WriteIsLoading b :: writes w))).

(** [getCookie(key)] of cookies-next: the stored value or [undefined]. *)
Definition getCookie (key : string) : Js (option string) :=
  fun w => (Normal (cookies w !! key), observe w).

(** What the cookie jar does with [key=value; Max-Age=n]: a max-age that
    is not positive expires the cookie at once (RFC 6265, 5.2.2),
    otherwise (or without the attribute) the value is stored. *)
Definition store_cookie (key value : string) (maxAge : option Z)
    (jar : gmap string string) : gmap string string :=
  match maxAge with
  | Some n => if (n <=? 0)%Z then delete key jar else <[key := value]> jar
  | None => <[key := value]> jar
  end.

(** [setCookie(key, value, { maxAge })] of cookies-next, for a value
    that is well-formed text, which the library can always encode. *)
Definition setCookie (key value : string) (maxAge : option Z) : Js unit :=
  fun w =>
    (Normal tt,
     observe (mkWorld (user w) (isLoading w)
                      (store_cookie key value maxAge (cookies w))
                      (requests w) (navigation w) (console w)
                      (mkCookieWrite key value maxAge :: cookieWrites w)
                      (trace w) (writes w))).

Definition router_push (url : string) : Js unit :=
  fun w =>
    (Normal tt,
     observe (mkWorld (user w) (isLoading w) (cookies w) (requests w)
                      (Push url :: navigation w) (console w)
                      (cookieWrites w) (trace w) (writes w))).

Definition router_replace (url : string) : Js unit :=
  fun w =>
    (Normal tt,
     observe (mkWorld (user w) (isLoading w) (cookies w) (requests w)
                      (Replace url :: navigation w) (console w)
                      (cookieWrites w) (trace w) (writes w))).

Definition console_error (label : string) (e : JsError) : Js unit :=
  fun w =>
    (Normal tt,
     observe (mkWorld (user w) (isLoading w) (cookies w) (requests w)
                      (navigation w) ((label, e) :: console w)
                      (cookieWrites w) (trace w) (writes w))).

(** [res.json()]: rejects when the body is not JSON. *)
Definition res_json (res : Response) : Js json :=
  fun w =>
    match body res with
    | Some v => (Normal v, observe w)
    | None => (Throw SyntaxError, observe w)
    end.

(** [data.user]: a property read throws on [null], finds own fields on an
    object and is [undefined] on every other JSON value. *)
Definition get_user (data : json) : Js (option json) :=
  match data with
  | JNull => throw TypeError
  | JObj fields => ret (assoc "user" fields)
  | _ => ret None
  end.

(** [v || null] for [v] a JSON value or [undefined]. *)
Definition or_null (v : option json) : option json :=
  match v with
  | Some x => if truthy x then Some x else None
  | None => None
  end.

(** [a || b] for strings, [b] being evaluated only when [a] is falsy. *)
Definition or_else (a : option string) (b : Js (option string))
    : Js (option string) :=
  if truthy_opt a then ret a else b.

(** The value of a truthy [string | undefined]. *)
Definition str (o : option string) : string := default "" o.

(** ** Observations of a running operation *)

Definition clear_trace (w : World) : World :=
  mkWorld (user w) (isLoading w) (cookies w) (requests w) (navigation w)
          (console w) (cookieWrites w) [] (writes w).

(** The states of the two cells while [m] runs from [w]: one after each
    primitive step, the most recent first, so that the head is the state
    on completion. *)
Definition observations {A} (m : Js A) (w : World) : list Controller :=
  trace (exec m (clear_trace w)).



(** [user] is [null] or a truthy value, so that a consumer's
    [if (!user)] tests exactly for [null]. *)
Definition user_ok (w : World) : Prop :=
  match user w with
  | Some u => truthy u = true
  | None => True
  end.


(** ** The home page (src/app/page.tsx) *)

(** What [HomeContent] returns: the loading indicator, or the page with
    its text line above the [Log in] and [Log out] buttons. *)
Inductive View : Type :=
  | LoadingView
  | HomeView (text : json).

(** [user?.email]: [undefined] on [null], the own field on an object. *)
Definition user_email (u : option json) : option json :=
  match u with
  | Some (JObj fields) => assoc "email" fields
  | _ => None
  end.

Definition HomeContent (c : Controller) : View :=
  if c_isLoading c then LoadingView
  else HomeView (match user_email (c_user c) with
                 | Some v => if truthy v then v else JStr "Not logged in"
                 | None => JStr "Not logged in"
                 end).

(** What [fetchUser] makes of the account endpoint's answer. *)
Definition resolution (reply : FetchOutcome) : option json :=
  match reply with
  | Rejected => None
  | Responded res =>
      if ok res then
        match body res with
        | Some (JObj fields) => or_null (assoc "user" fields)
        | _ => None
        end
      else None
  end.

(** ** A sample deployment, for concrete runs *)

Definition sample_iam : string := "https://iam.example".
Definition sample_origin : string := "https://app.example".

Definition sample_user : json :=
  JObj [("$id", JStr "1"); ("$createdAt", JStr "2025-01-01");
        ("$updatedAt", JStr "2025-01-02"); ("email", JStr "a@b.com");
        ("emailVerification", JBool true)].

(** An IAM server that knows every session as [sample_user]. *)
Definition server_up : nat -> Request -> FetchOutcome :=
  fun _ _ => Responded (mkResponse 200 (Some (JObj [("user", sample_user)]))).

(** An IAM server that answers every request with status 500. *)
Definition server_failing : nat -> Request -> FetchOutcome :=
  fun _ _ => Responded (mkResponse 500 None).

(** An IAM server that knows no session: status 200 and no user. *)
Definition server_anonymous : nat -> Request -> FetchOutcome :=
  fun _ _ => Responded (mkResponse 200 (Some (JObj [("user", JNull)]))).

(** No network: every [fetch] rejects. *)
Definition server_unreachable : nat -> Request -> FetchOutcome :=
  fun _ _ => Rejected.

(** A loaded provider with [sample_user] signed in under token [abc]. *)
Definition signed_in : World :=
  mkWorld (Some sample_user) false {[ "fe-chat-session" := "abc" ]}
          [] [] [] [] [] [].

(** A loaded provider with nobody signed in and no cookie. *)
Definition signed_out : World :=
  mkWorld None false ∅ [] [] [] [] [] [].

Section Provider.

(** [process.env.NEXT_PUBLIC_IAM_URL], [window.location.origin], and the
    IAM server: its answer to a request, given how many requests were
    issued before it. *)
Variable IAM_URL : string.
Variable origin : string.
Variable server : nat -> Request -> FetchOutcome.

(** [fetch(url, init)]: the request is logged and the server answers. *)
Definition fetch (req : Request) : Js Response :=
  fun w =>
    let w' := observe (mkWorld (user w) (isLoading w) (cookies w)
                               (req :: requests w) (navigation w)
                               (console w) (cookieWrites w) (trace w)
                               (writes w)) in
    match server (length (requests w)) req with
    | Responded res => (Normal res, w')
    | Rejected => (Throw NetworkFailure, w')
    end.

Definition account_request (session : string) : Request :=
  mkRequest GET (IAM_URL +:+ "/api/account") [("session", session)] None.

Definition signout_request (session : string) : Request :=
  mkRequest POST (IAM_URL +:+ "/api/signout") [("session", session)]
            (Some (JObj [("sessionId", JStr "current")])).

(** ** The provider's functions *)

Definition fetchUser (sessionToken : option string) : Js (option json) :=
  try_catch
    (session <- or_else sessionToken (getCookie "fe-chat-session") ;;
     if negb (truthy_opt session) then ret None
     else
       res <- fetch (account_request (str session)) ;;
       (if negb (ok res) then throw (Error "Failed to fetch user")
        else ret tt) ;;
       data <- res_json res ;;
       u <- get_user data ;;
       ret (or_null u))
    (fun error =>
       console_error "Error fetching user:" error ;;
       ret None).

Definition login (redirectUrl : option string) : Js unit :=
  router_push (IAM_URL +:+ "/auth/signin?redirectUrl=" +:+
               (if truthy_opt redirectUrl then str redirectUrl else origin)).

Definition logout (redirectUrl : option string) : Js unit :=
  setIsLoading true ;;
  try_finally
    (try_catch
       (session <- getCookie "fe-chat-session" ;;
        (if truthy_opt session
         then (_ <- fetch (signout_request (str session)) ;; ret tt)
         else ret tt) ;;
        setUser None ;;
        setCookie "fe-chat-session" "" (Some (-1)%Z) ;;
        if truthy_opt redirectUrl
        then router_replace
               (if truthy_opt redirectUrl then str redirectUrl else origin)
        else ret tt)
       (fun error => console_error "Logout error:" error))
    (setIsLoading false).

Definition refreshUser (sessionToken : option string) : Js unit :=
  setIsLoading true ;;
  try_finally
    (try_catch
       (userData <- fetchUser sessionToken ;;
        setUser userData)
       (fun error =>
          console_error "Refresh user error:" error ;;
          setUser None))
    (setIsLoading false).

Definition setUserFromSession (session : string) : Js unit :=
  setIsLoading true ;;
  try_finally
    (try_catch
       (setCookie "fe-chat-session" session None ;;
        userData <- fetchUser (Some session) ;;
        setUser userData)
       (fun error =>
          console_error "Set user from session error:" error ;;
          setUser None))
    (setIsLoading false).

Definition initializeUser : Js unit :=
  setIsLoading true ;;
  try_finally
    (try_catch
       (userData <- fetchUser None ;;
        setUser userData)
       (fun error =>
          console_error "Initialize user error:" error ;;
          setUser None))
    (setIsLoading false).


(** The token a resolution works with: the override when truthy, the
    stored cookie otherwise. *)
Definition effective_session (tok : option string) (w : World)
    : option string :=
  if truthy_opt tok then tok else cookies w !! "fe-chat-session".

(** The user a resolution arrives at. *)
Definition resolved (tok : option string) (w : World) : option json :=
  if truthy_opt (effective_session tok w)
  then resolution (server (length (requests w))
                          (account_request (str (effective_session tok w))))
  else None.

(** The sign-in page [login] is claimed to open: the supplied target, the
    origin when none is supplied. *)
Definition signin_url_as_claimed (redirectUrl : option string) : string :=
  IAM_URL +:+ "/auth/signin?redirectUrl=" +:+ default origin redirectUrl.

(** ** Facts used throughout *)

Ltac js_unfold :=
  unfold observations, result, exec, initializeUser, setUserFromSession,
    refreshUser, logout, login, fetchUser, try_finally, try_catch, bind,
    or_else,
    fetch, getCookie, setCookie, setUser, setIsLoading, router_push,
    router_replace, console_error, res_json, get_user, throw, ret, observe,
    controller, effective_session, account_request, signout_request,
    resolution, clear_trace in *;
  cbn in *.

Ltac js_rewrite :=
  repeat match goal with
         | H : ?x = _ |- context [?x] => rewrite H
         end;
  cbn.

Ltac js_clash :=
  repeat match goal with
         | H : ?x = _, H' : context [?x] |- _ => progress rewrite H in H'
         end;
  cbn in *; simplify_eq; done.

Ltac js_cases :=
  js_rewrite;
  repeat (case_match; simplify_eq; cbn in *; js_rewrite; try done);
  try done; try js_clash.

(** A user record is an object, and every object is truthy. *)
Lemma object_truthy fields : truthy (JObj fields) = true.
Proof. reflexivity. Qed.

Lemma run_eq {A} (m : Js A) w : m w = (result m w, exec m w).
Proof. unfold result, exec. by destruct (m w). Qed.

(** The completion of [fetchUser] is always normal, and its value is read
    off the server's reply. *)
Lemma fetchUser_result tok w :
  result (fetchUser tok) w = Normal (resolved tok w).
Proof.
  unfold resolved. js_unfold.
  destruct (truthy_opt tok) eqn:Htok; cbn; js_cases.
Qed.

(** [fetchUser] writes neither [useState] cell, nor the cookie jar, nor
    the router. *)
Lemma fetchUser_frame tok w :
  user (exec (fetchUser tok) w) = user w /\
  isLoading (exec (fetchUser tok) w) = isLoading w /\
  cookies (exec (fetchUser tok) w) = cookies w /\
  cookieWrites (exec (fetchUser tok) w) = cookieWrites w /\
  navigation (exec (fetchUser tok) w) = navigation w.
Proof. js_unfold. js_cases. Qed.

(** It sends the account request when it has a token, nothing otherwise. *)
Lemma fetchUser_requests tok w :
  requests (exec (fetchUser tok) w) =
    if truthy_opt (effective_session tok w)
    then account_request (str (effective_session tok w)) :: requests w
    else requests w.
Proof.
  js_unfold. destruct (truthy_opt tok) eqn:Htok; cbn; js_cases.
Qed.


(** [refreshUser] and [initializeUser] resolve and commit: the [catch]
    block is never entered, because [fetchUser] does not throw. *)
Lemma refreshUser_run tok w :
  refreshUser tok w =
    (Normal tt,
     exec (setIsLoading false)
       (exec (setUser (resolved tok (exec (setIsLoading true) w)))
          (exec (fetchUser tok) (exec (setIsLoading true) w)))).
Proof.
  unfold refreshUser, try_finally, try_catch, bind.
  change (setIsLoading true w) with (Normal tt, exec (setIsLoading true) w).
  cbv iota. rewrite (run_eq (fetchUser tok)), fetchUser_result.
  reflexivity.
Qed.

Lemma initializeUser_run w :
  initializeUser w =
    (Normal tt,
     exec (setIsLoading false)
       (exec (setUser (resolved None (exec (setIsLoading true) w)))
          (exec (fetchUser None) (exec (setIsLoading true) w)))).
Proof.
  unfold initializeUser, try_finally, try_catch, bind.
  change (setIsLoading true w) with (Normal tt, exec (setIsLoading true) w).
  cbv iota. rewrite (run_eq (fetchUser None)), fetchUser_result.
  reflexivity.
Qed.

Lemma setUserFromSession_run session w :
  let w1 := exec (setCookie "fe-chat-session" session None)
                 (exec (setIsLoading true) w) in
  setUserFromSession session w =
    (Normal tt,
     exec (setIsLoading false)
       (exec (setUser (resolved (Some session) w1))
          (exec (fetchUser (Some session)) w1))).
Proof.
  cbv zeta. unfold setUserFromSession, try_finally, try_catch, bind.
  change (setIsLoading true w) with (Normal tt, exec (setIsLoading true) w).
  cbv iota.
  change (setCookie "fe-chat-session" session None
            (exec (setIsLoading true) w))
    with (Normal tt : Completion unit,
          exec (setCookie "fe-chat-session" session None)
               (exec (setIsLoading true) w)).
  cbv iota. rewrite (run_eq (fetchUser (Some session))), fetchUser_result.
  reflexivity.
Qed.

(** What the three resolving operations leave in [user]. *)
Lemma refreshUser_user tok w :
  user (exec (refreshUser tok) w) = resolved tok w.
Proof.
  unfold exec at 1. rewrite refreshUser_run. reflexivity.
Qed.

Lemma refreshUser_cookies tok w :
  cookies (exec (refreshUser tok) w) = cookies w.
Proof.
  unfold exec at 1. rewrite refreshUser_run.
  change (cookies (exec (fetchUser tok) (exec (setIsLoading true) w))
          = cookies w).
  by destruct (fetchUser_frame tok (exec (setIsLoading true) w))
    as (_ & _ & -> & _).
Qed.

Lemma refreshUser_requests tok w :
  requests (exec (refreshUser tok) w) =
    if truthy_opt (effective_session tok w)
    then account_request (str (effective_session tok w)) :: requests w
    else requests w.
Proof.
  unfold exec at 1. rewrite refreshUser_run.
  exact (fetchUser_requests tok (exec (setIsLoading true) w)).
Qed.

Lemma initializeUser_user w :
  user (exec initializeUser w) = resolved None w.
Proof.
  unfold exec at 1. rewrite initializeUser_run. reflexivity.
Qed.

Lemma setUserFromSession_user session w :
  user (exec (setUserFromSession session) w) =
    resolved (Some session)
      (exec (setCookie "fe-chat-session" session None) w).
Proof.
  unfold exec at 1. rewrite setUserFromSession_run. reflexivity.
Qed.

(** ** Resolution: [fetchUser] *)

(** C3. [fetchUser] never throws to its caller, whatever the token and
    whatever the account endpoint answers.  Without a token, on a
    transport failure, on a non-2xx status, on a body that is not JSON and
    on a JSON body without a [user] field the result is [null] alike.  On
    a 2xx response with a [user] field the result is that user: the user
    record when the field holds one, [null] when it holds [null]
    ([data.user || null] turns every other falsy value, which the type
    of the field excludes, into [null] as well). *)
Theorem fetchUser_never_throws (tok : option string) (w : World) :
  let session := effective_session tok w in
  let reply := server (length (requests w)) (account_request (str session)) in
  (exists u, result (fetchUser tok) w = Normal u) /\
  (truthy_opt session = false -> result (fetchUser tok) w = Normal None) /\
  (truthy_opt session = true -> reply = Rejected ->
     result (fetchUser tok) w = Normal None) /\
  (forall res, truthy_opt session = true -> reply = Responded res ->
     ok res = false -> result (fetchUser tok) w = Normal None) /\
  (forall res, truthy_opt session = true -> reply = Responded res ->
     ok res = true -> body res = None ->
     result (fetchUser tok) w = Normal None) /\
  (forall res data, truthy_opt session = true -> reply = Responded res ->
     ok res = true -> body res = Some data ->
     (forall fields, data = JObj fields -> assoc "user" fields = None) ->
     result (fetchUser tok) w = Normal None) /\
  (forall res fields record, truthy_opt session = true ->
     reply = Responded res -> ok res = true ->
     body res = Some (JObj fields) ->
     assoc "user" fields = Some (JObj record) ->
     result (fetchUser tok) w = Normal (Some (JObj record))) /\
  (forall res fields, truthy_opt session = true ->
     reply = Responded res -> ok res = true ->
     body res = Some (JObj fields) ->
     assoc "user" fields = Some JNull ->
     result (fetchUser tok) w = Normal None) /\
  (forall res fields u, truthy_opt session = true ->
     reply = Responded res -> ok res = true ->
     body res = Some (JObj fields) -> assoc "user" fields = Some u ->
     result (fetchUser tok) w = Normal (if truthy u then Some u else None)).
Proof.
  cbv zeta. rewrite fetchUser_result. unfold resolved.
  split; [eauto|].
  repeat split.
  - by intros ->.
  - by intros -> ->.
  - intros res -> -> Hok. cbn. by rewrite Hok.
  - intros res -> -> Hok Hbody. cbn. by rewrite Hok, Hbody.
  - intros res data -> -> Hok Hbody Hnone. cbn. rewrite Hok, Hbody.
    destruct data; try done. by rewrite (Hnone _ eq_refl).
  - intros res fields record -> -> Hok Hbody Hu. cbn.
    by rewrite Hok, Hbody, Hu.
  - intros res fields -> -> Hok Hbody Hu. cbn.
    by rewrite Hok, Hbody, Hu.
  - intros res fields u -> -> Hok Hbody Hu. cbn.
    by rewrite Hok, Hbody, Hu.
Qed.

(** ** Initial load *)

(** C5. With no token in the cookie (and the mount effect passing no
    override to [fetchUser]) the initial resolution completes with
    [user = null], leaves [isLoading] false and issues no HTTP request. *)
Theorem initial_resolution_without_token (jar : gmap string string) :
  truthy_opt (jar !! "fe-chat-session") = false ->
  result initializeUser (mount jar) = Normal tt /\
  user (exec initializeUser (mount jar)) = None /\
  isLoading (exec initializeUser (mount jar)) = false /\
  requests (exec initializeUser (mount jar)) = [].
Proof.
  intros Hjar. split; [|split; [|split]].
  - unfold result. by rewrite initializeUser_run.
  - rewrite initializeUser_user. unfold resolved, effective_session. cbn.
    by rewrite Hjar.
  - unfold exec. by rewrite initializeUser_run.
  - unfold exec at 1. rewrite initializeUser_run.
    change (requests (exec (fetchUser None)
                           (exec (setIsLoading true) (mount jar))) = []).
    rewrite fetchUser_requests. unfold effective_session. cbn.
    by rewrite Hjar.
Qed.

(** ** Session adoption: [setUserFromSession] *)

(** C4. For every token [T], [setUserFromSession T] completes with the
    [fe-chat-session] cookie equal to [T]; and when its resolution
    succeeds, that is when the account endpoint answers the request for
    [T] with a 2xx status and a JSON body, [user] equals the user the
    body reports, or [null] when it reports none.  (A resolution asks the
    endpoint only for a non-empty [T].) *)
Theorem setUserFromSession_adopts (T : string) (w : World) :
  result (setUserFromSession T) w = Normal tt /\
  cookies (exec (setUserFromSession T) w) !! "fe-chat-session" = Some T /\
  (forall (res : Response) (data : json),
     T <> "" ->
     server (length (requests w)) (account_request T) = Responded res ->
     ok res = true ->
     body res = Some data ->
     (forall fields u,
        data = JObj fields -> assoc "user" fields = Some u ->
        truthy u = true ->
        user (exec (setUserFromSession T) w) = Some u) /\
     ((forall fields, data = JObj fields ->
         assoc "user" fields = None \/ assoc "user" fields = Some JNull) ->
      user (exec (setUserFromSession T) w) = None)).
Proof.
  split; [|split].
  - unfold result. by rewrite setUserFromSession_run.
  - unfold exec at 1. rewrite setUserFromSession_run.
    change (cookies (exec (fetchUser (Some T))
              (exec (setCookie "fe-chat-session" T None)
                    (exec (setIsLoading true) w))) !! "fe-chat-session"
            = Some T).
    destruct (fetchUser_frame (Some T)
                (exec (setCookie "fe-chat-session" T None)
                      (exec (setIsLoading true) w))) as (_ & _ & -> & _).
    cbn. apply lookup_insert_eq.
  - intros res data HT Hreply Hok Hbody.
    assert (Htruthy : truthy_string T = true) by (by destruct T).
    rewrite setUserFromSession_user.
    unfold resolved, effective_session. cbn. rewrite !Htruthy. cbn.
    fold (account_request T). rewrite Hreply. cbn.
    rewrite Hok, Hbody, ?Htruthy. split.
    + intros fields u -> Hu Hut. rewrite Hu. cbn. by rewrite Hut.
    + intros Hnone. destruct data; try done.
      by destruct (Hnone _ eq_refl) as [-> | ->].
Qed.

(** C10. [setUserFromSession] with the empty string writes the empty
    string to the [fe-chat-session] cookie; resolution then finds no
    truthy token, neither in the argument nor in the cookie, so the
    operation completes with [user = null] and no HTTP request. *)
Theorem setUserFromSession_empty_string (w : World) :
  result (setUserFromSession "") w = Normal tt /\
  cookies (exec (setUserFromSession "") w) =
    <["fe-chat-session" := ""]> (cookies w) /\
  cookies (exec (setUserFromSession "") w) !! "fe-chat-session" = Some "" /\
  user (exec (setUserFromSession "") w) = None /\
  isLoading (exec (setUserFromSession "") w) = false /\
  requests (exec (setUserFromSession "") w) = requests w.
Proof.
  js_unfold. rewrite lookup_insert_eq. cbn. by rewrite lookup_insert_eq.
Qed.

(** ** Refresh *)

(** C8. Two calls of [refreshUser] in succession, the second starting
    where the first ended: the first leaves the stored token as it was,
    and when the account endpoint reports the same user in both answers
    (nothing is asked when no token is available) the second call ends
    with the value of [user] that the first established. *)
Theorem refreshUser_twice (tok : option string) (w : World)
    (res1 res2 : Response) (fields1 fields2 : list (string * json)) :
  let session := effective_session tok w in
  let n := length (requests w) in
  (truthy_opt session = true ->
     server n (account_request (str session)) = Responded res1 /\
     server (S n) (account_request (str session)) = Responded res2 /\
     ok res1 = true /\ ok res2 = true /\
     body res1 = Some (JObj fields1) /\ body res2 = Some (JObj fields2) /\
     assoc "user" fields1 = assoc "user" fields2) ->
  cookies (exec (refreshUser tok) w) = cookies w /\
  user (exec (refreshUser tok) w) =
    (if truthy_opt session then or_null (assoc "user" fields1) else None) /\
  user (exec (refreshUser tok) (exec (refreshUser tok) w)) =
    user (exec (refreshUser tok) w).
Proof.
  cbv zeta. intros Hsame.
  assert (Hsession : effective_session tok (exec (refreshUser tok) w)
                     = effective_session tok w).
  { unfold effective_session. by rewrite refreshUser_cookies. }
  split; [apply refreshUser_cookies|].
  rewrite !refreshUser_user. unfold resolved.
  rewrite Hsession, refreshUser_requests.
  destruct (truthy_opt (effective_session tok w)); [|done].
  destruct Hsame as (-> & Hsecond & Hok1 & Hok2 & Hb1 & Hb2 & Heq); [done|].
  cbn [length]. rewrite Hsecond. cbn.
  by rewrite Hok1, Hok2, Hb1, Hb2, Heq.
Qed.

(** ** Logout *)

(** When the signout request is answered, with whatever status, or is
    not sent at all, [logout] runs its [try] block to the end. *)
Lemma logout_completes r w :
  (truthy_opt (cookies w !! "fe-chat-session") = true ->
   exists res,
     server (length (requests w))
            (signout_request (str (cookies w !! "fe-chat-session")))
       = Responded res) ->
  result (logout r) w = Normal tt /\
  user (exec (logout r) w) = None /\
  cookies (exec (logout r) w) = delete "fe-chat-session" (cookies w) /\
  cookieWrites (exec (logout r) w) =
    mkCookieWrite "fe-chat-session" "" (Some (-1)%Z) :: cookieWrites w /\
  isLoading (exec (logout r) w) = false /\
  console (exec (logout r) w) = console w.
Proof.
  intros Hreply. js_unfold.
  destruct (truthy_opt (cookies w !! "fe-chat-session")) eqn:Hsession.
  - destruct Hreply as [res Hres]; [done|]. cbn. rewrite Hres. cbn.
    by destruct (truthy_opt r).
  - cbn. by destruct (truthy_opt r).
Qed.

(** When the signout request fails in transport, the [catch] block runs
    instead of the rest of the [try] block: [user] and the cookie stay. *)
Lemma logout_rejected r w :
  truthy_opt (cookies w !! "fe-chat-session") = true ->
  server (length (requests w))
         (signout_request (str (cookies w !! "fe-chat-session"))) = Rejected ->
  result (logout r) w = Normal tt /\
  user (exec (logout r) w) = user w /\
  cookies (exec (logout r) w) = cookies w /\
  isLoading (exec (logout r) w) = false /\
  console (exec (logout r) w) = ("Logout error:", NetworkFailure) :: console w.
Proof.
  intros Hsession Hreply. js_unfold. rewrite Hsession. cbn.
  by rewrite Hreply.
Qed.

(** The requests [logout] sends. *)
Lemma logout_requests r w :
  requests (exec (logout r) w) =
    if truthy_opt (cookies w !! "fe-chat-session")
    then signout_request (str (cookies w !! "fe-chat-session")) :: requests w
    else requests w.
Proof. js_unfold. js_cases. Qed.

(** C9. When no token is stored, [logout] sends no request, so nothing
    in its [try] block can throw and the [catch] block is not entered
    (nothing is logged): it completes with [user = null], the cookie
    expired by a [setCookie] with max-age -1, and [isLoading = false]. *)
Theorem logout_without_token (r : option string) (w : World) :
  truthy_opt (cookies w !! "fe-chat-session") = false ->
  result (logout r) w = Normal tt /\
  requests (exec (logout r) w) = requests w /\
  console (exec (logout r) w) = console w /\
  user (exec (logout r) w) = None /\
  cookies (exec (logout r) w) !! "fe-chat-session" = None /\
  cookieWrites (exec (logout r) w) =
    mkCookieWrite "fe-chat-session" "" (Some (-1)%Z) :: cookieWrites w /\
  isLoading (exec (logout r) w) = false.
Proof.
  intros Hnone.
  destruct (logout_completes r w) as (Hres & Huser & Hjar & Hwrite & Hl & Hc).
  { by rewrite Hnone. }
  rewrite logout_requests, Hnone, Hjar, lookup_delete_eq. done.
Qed.

(** ** Login *)

(** C7, as the code has it.  [login] sends no request and writes neither
    [user] nor [isLoading] (nor the cookie, nor the console): its only
    effect is one [router.push] to the sign-in page of the IAM server,
    with [redirectUrl] set to the supplied target when that is a
    non-empty string, and to the origin of the current page when no
    target or the empty string is supplied. *)
Theorem login_only_navigates (redirectUrl : option string) (w : World) :
  result (login redirectUrl) w = Normal tt /\
  requests (exec (login redirectUrl) w) = requests w /\
  user (exec (login redirectUrl) w) = user w /\
  isLoading (exec (login redirectUrl) w) = isLoading w /\
  cookies (exec (login redirectUrl) w) = cookies w /\
  cookieWrites (exec (login redirectUrl) w) = cookieWrites w /\
  console (exec (login redirectUrl) w) = console w /\
  navigation (exec (login redirectUrl) w) =
    Push (IAM_URL +:+ "/auth/signin?redirectUrl=" +:+
          match redirectUrl with
          | Some (String c target) => String c target
          | Some EmptyString | None => origin
          end) :: navigation w.
Proof.
  js_unfold. repeat split. by destruct redirectUrl as [[|c target]|].
Qed.

(** ** The loading flag *)








(** ** Further properties of the provider *)

(** X8. [fetchUser] logs exactly the failures of a request it sent, each
    under the label [Error fetching user:]: a transport failure, a
    non-2xx status (as [Failed to fetch user]), a body that is not JSON,
    and the body [null].  Without a token, and on a 2xx answer with any
    other JSON body, it logs nothing. *)
Theorem fetchUser_logs_failures (tok : option string) (w : World) :
  let session := effective_session tok w in
  let reply := server (length (requests w)) (account_request (str session)) in
  let logged e :=
    console (exec (fetchUser tok) w) =
      ("Error fetching user:", e) :: console w in
  (truthy_opt session = false ->
     console (exec (fetchUser tok) w) = console w) /\
  (truthy_opt session = true -> reply = Rejected -> logged NetworkFailure) /\
  (forall res, truthy_opt session = true -> reply = Responded res ->
     ok res = false -> logged (Error "Failed to fetch user")) /\
  (forall res, truthy_opt session = true -> reply = Responded res ->
     ok res = true -> body res = None -> logged SyntaxError) /\
  (forall res, truthy_opt session = true -> reply = Responded res ->
     ok res = true -> body res = Some JNull -> logged TypeError) /\
  (forall res data, truthy_opt session = true -> reply = Responded res ->
     ok res = true -> body res = Some data -> data <> JNull ->
     console (exec (fetchUser tok) w) = console w).
Proof.
  cbv zeta. repeat split; intros; js_unfold;
    destruct (truthy_opt tok) eqn:Htok; cbn in *; js_cases.
Qed.

Lemma fetchUser_console tok w :
  console (exec (fetchUser tok) w) = console w \/
  exists e,
    console (exec (fetchUser tok) w) =
      ("Error fetching user:", e) :: console w.
Proof.
  js_unfold. destruct (truthy_opt tok) eqn:Htok; cbn; js_cases; eauto.
Qed.

(** X9. The [catch] blocks of [refreshUser] and [initializeUser] are
    never entered: whatever the server does, each of these operations
    adds to the console at most one entry, and that entry is the one of
    [fetchUser], never one under the operation's own label. *)
Theorem refresh_and_initial_load_log_only_fetch_errors (w : World) :
  let fetch_error_only (w' : World) :=
    console w' = console w \/
    exists e, console w' = ("Error fetching user:", e) :: console w in
  (forall tok, fetch_error_only (exec (refreshUser tok) w)) /\
  fetch_error_only (exec initializeUser w).
Proof.
  cbv zeta. split.
  - intros tok. unfold exec at 1 2. rewrite refreshUser_run.
    exact (fetchUser_console tok (exec (setIsLoading true) w)).
  - unfold exec at 1 2. rewrite initializeUser_run.
    exact (fetchUser_console None (exec (setIsLoading true) w)).
Qed.

(** X10. No exception escapes the provider: whether the request it
    sends is answered or rejected, the promise of [login], [logout],
    [refreshUser], [setUserFromSession] and of the initial load never
    rejects. *)
Theorem operations_never_throw (w : World) (e : JsError) :
  (forall r, result (login r) w <> Throw e) /\
  (forall r, result (logout r) w <> Throw e) /\
  (forall tok, result (refreshUser tok) w <> Throw e) /\
  (forall session, result (setUserFromSession session) w <> Throw e) /\
  result initializeUser w <> Throw e.
Proof.
  split; [|split; [|split; [|split]]].
  - done.
  - intros r. js_unfold. js_cases.
  - intros tok. unfold result. by rewrite refreshUser_run.
  - intros session. unfold result. by rewrite setUserFromSession_run.
  - unfold result. by rewrite initializeUser_run.
Qed.

Lemma truthy_opt_inv (o : option string) :
  truthy_opt o = true -> exists t, o = Some t /\ t <> "" /\ str o = t.
Proof. destruct o as [[|c t]|]; [done| |done]. intros _. by eexists. Qed.

Lemma initializeUser_requests w :
  requests (exec initializeUser w) =
    if truthy_opt (effective_session None w)
    then account_request (str (effective_session None w)) :: requests w
    else requests w.
Proof.
  unfold exec at 1. rewrite initializeUser_run.
  exact (fetchUser_requests None (exec (setIsLoading true) w)).
Qed.

Lemma setUserFromSession_cookies session w :
  cookies (exec (setUserFromSession session) w) =
    <["fe-chat-session" := session]> (cookies w).
Proof.
  unfold exec at 1. rewrite setUserFromSession_run.
  destruct (fetchUser_frame (Some session)
              (exec (setCookie "fe-chat-session" session None)
                    (exec (setIsLoading true) w)))
    as (_ & _ & Hjar & _).
  etrans; [exact Hjar|]. reflexivity.
Qed.

Lemma setUserFromSession_requests session w :
  requests (exec (setUserFromSession session) w) =
    if truthy_string session
    then account_request session :: requests w
    else requests w.
Proof.
  unfold exec at 1. rewrite setUserFromSession_run.
  etrans; [apply (fetchUser_requests (Some session))|].
  unfold effective_session. cbn. rewrite lookup_insert_eq. cbn.
  destruct (truthy_string session) eqn:Hsession; cbn; by rewrite Hsession.
Qed.

(** X1. [logout] navigates only with [router.replace], only to the
    supplied target, and only when its [try] block gets that far: with a
    non-empty target and the signout request answered or not sent, the
    one navigation is to that target; with no target or the empty
    string, and whenever the signout request fails in transport, there
    is no navigation at all. *)
Theorem logout_navigation (r : option string) (w : World) :
  let session := cookies w !! "fe-chat-session" in
  let reply := server (length (requests w)) (signout_request (str session)) in
  (truthy_opt r = true ->
   truthy_opt session = false \/ (exists res, reply = Responded res) ->
   navigation (exec (logout r) w) = Replace (str r) :: navigation w) /\
  (truthy_opt r = false ->
   navigation (exec (logout r) w) = navigation w) /\
  (truthy_opt session = true -> reply = Rejected ->
   navigation (exec (logout r) w) = navigation w).
Proof.
  cbv zeta. split; [|split].
  - intros Hr [Hnone | [res Hres]]; js_unfold; js_cases.
  - intros Hr. js_unfold. js_cases.
  - intros Hsession Hreply. js_unfold. js_cases.
Qed.

(** X3. [refreshUser] with a non-empty override resolves that token and
    not the stored one: the account request carries the override in its
    [session] header whatever the cookie holds, and the override is not
    persisted, the cookie jar being left as it was. *)
Theorem refreshUser_override (tok : option string) (w : World) :
  truthy_opt tok = true ->
  requests (exec (refreshUser tok) w) =
    mkRequest GET (IAM_URL +:+ "/api/account") [("session", str tok)] None
      :: requests w /\
  cookies (exec (refreshUser tok) w) = cookies w /\
  cookieWrites (exec (refreshUser tok) w) = cookieWrites w.
Proof.
  intros Htok. split; [|split].
  - rewrite refreshUser_requests. unfold effective_session.
    by rewrite Htok, Htok.
  - apply refreshUser_cookies.
  - unfold exec at 1. rewrite refreshUser_run.
    destruct (fetchUser_frame tok (exec (setIsLoading true) w))
      as (_ & _ & _ & Hwrites & _).
    etrans; [exact Hwrites|]. reflexivity.
Qed.

(** X4. [setUserFromSession] persists the token before it resolves it
    and does not take it back: when the account request fails in
    transport, is answered with a non-2xx status, or with a body that is
    not JSON, the operation still completes with the cookie holding the
    token, while [user] is [null] and [isLoading] false. *)
Theorem setUserFromSession_unresolved (T : string) (w : World) :
  let reply := server (length (requests w)) (account_request T) in
  T <> "" ->
  reply = Rejected \/
  (exists res, reply = Responded res /\ (ok res = false \/ body res = None)) ->
  cookies (exec (setUserFromSession T) w) !! "fe-chat-session" = Some T /\
  user (exec (setUserFromSession T) w) = None /\
  isLoading (exec (setUserFromSession T) w) = false.
Proof.
  cbv zeta. intros HT Hfail.
  assert (Htruthy : truthy_string T = true) by (by destruct T).
  split; [|split].
  - rewrite setUserFromSession_cookies. apply lookup_insert_eq.
  - rewrite setUserFromSession_user. unfold resolved, effective_session.
    cbn. rewrite !Htruthy. cbn. fold (account_request T).
    destruct Hfail as [-> | (res & -> & [Hok | Hbody])]; cbn;
      rewrite ?Htruthy; [done| by rewrite Hok |].
    rewrite Hbody. by destruct (ok res).
  - unfold exec. by rewrite setUserFromSession_run.
Qed.

(** X5. A completed [logout] leaves no token behind: once [logout] has
    run with its signout request answered (or not sent), a following
    [refreshUser()], a reload of the provider ([initializeUser]) and a
    second [logout] send no request at all and end with [user = null]. *)
Theorem nothing_sent_after_logout (r : option string) (w : World) :
  let session := cookies w !! "fe-chat-session" in
  let w1 := exec (logout r) w in
  (truthy_opt session = true ->
   exists res,
     server (length (requests w)) (signout_request (str session))
       = Responded res) ->
  (requests (exec (refreshUser None) w1) = requests w1 /\
   user (exec (refreshUser None) w1) = None) /\
  (requests (exec initializeUser w1) = requests w1 /\
   user (exec initializeUser w1) = None) /\
  (forall r', requests (exec (logout r') w1) = requests w1 /\
              user (exec (logout r') w1) = None).
Proof.
  cbv zeta. intros Hreply.
  destruct (logout_completes r w Hreply) as (_ & _ & Hjar & _).
  assert (Hnone : cookies (exec (logout r) w) !! "fe-chat-session" = None).
  { rewrite Hjar. apply lookup_delete_eq. }
  split; [|split].
  - rewrite refreshUser_requests, refreshUser_user.
    unfold resolved, effective_session. cbn. by rewrite Hnone.
  - rewrite initializeUser_requests, initializeUser_user.
    unfold resolved, effective_session. cbn. by rewrite Hnone.
  - intros r'. rewrite logout_requests, Hnone. split; [done|].
    apply logout_completes. by rewrite Hnone.
Qed.

(** X7. The token adopted by [setUserFromSession] is the one later
    operations read back from the cookie: after [setUserFromSession T]
    with [T] non-empty, [refreshUser()] sends its account request, and
    [logout] its signout request, with [T] in the [session] header. *)
Theorem adopted_token_is_read_back (T : string) (w : World) :
  let w1 := exec (setUserFromSession T) w in
  T <> "" ->
  requests (exec (refreshUser None) w1) = account_request T :: requests w1 /\
  (forall r,
     requests (exec (logout r) w1) = signout_request T :: requests w1).
Proof.
  cbv zeta. intros HT.
  assert (Htruthy : truthy_string T = true) by (by destruct T).
  assert (Hjar : cookies (exec (setUserFromSession T) w)
                   !! "fe-chat-session" = Some T).
  { rewrite setUserFromSession_cookies. apply lookup_insert_eq. }
  split.
  - rewrite refreshUser_requests. unfold effective_session. cbn.
    rewrite Hjar. cbn. by rewrite Htruthy.
  - intros r. rewrite logout_requests, Hjar. cbn. by rewrite Htruthy.
Qed.

Lemma resolved_ok tok w :
  match resolved tok w with
  | Some u => truthy u = true
  | None => True
  end.
Proof.
  unfold resolved, resolution, or_null. repeat case_match; simplify_eq; done.
Qed.

(** X12. [user] never holds a falsy value.  Every resolution leaves
    [user] either [null] or truthy, whatever the account endpoint put in
    the [user] field (0, the empty string and [false] become [null]),
    and [login] and [logout] keep it so. *)
Theorem user_is_null_or_truthy (w : World) :
  (forall tok, user_ok (exec (refreshUser tok) w)) /\
  (forall session, user_ok (exec (setUserFromSession session) w)) /\
  user_ok (exec initializeUser w) /\
  (user_ok w ->
   forall r, user_ok (exec (login r) w) /\ user_ok (exec (logout r) w)).
Proof.
  unfold user_ok. split; [|split; [|split]].
  - intros tok. rewrite refreshUser_user. apply resolved_ok.
  - intros session. rewrite setUserFromSession_user. apply resolved_ok.
  - rewrite initializeUser_user. apply resolved_ok.
  - intros Hw r. split; [done|]. js_unfold. js_cases.
Qed.

(** X13. No operation sends more than one request, and none is sent
    with an empty [session] header: [refreshUser], [setUserFromSession]
    and the initial load send nothing or the one account request,
    [logout] nothing or the one signout request, each for a non-empty
    token. *)
Theorem at_most_one_request_with_token (w : World) :
  let account_or_nothing (w' : World) :=
    requests w' = requests w \/
    exists t, t <> "" /\ requests w' = account_request t :: requests w in
  (forall tok, account_or_nothing (exec (refreshUser tok) w)) /\
  (forall session, account_or_nothing (exec (setUserFromSession session) w)) /\
  account_or_nothing (exec initializeUser w) /\
  (forall r,
     requests (exec (logout r) w) = requests w \/
     exists t, t <> "" /\
       requests (exec (logout r) w) = signout_request t :: requests w).
Proof.
  cbv zeta. split; [|split; [|split]].
  - intros tok. rewrite refreshUser_requests.
    destruct (truthy_opt (effective_session tok w)) eqn:Hs; [|by left].
    destruct (truthy_opt_inv _ Hs) as (t & _ & Ht & ->). right. by exists t.
  - intros session. rewrite setUserFromSession_requests.
    destruct session as [|c t]; [by left|]. right.
    exists (String c t). by split.
  - rewrite initializeUser_requests.
    destruct (truthy_opt (effective_session None w)) eqn:Hs; [|by left].
    destruct (truthy_opt_inv _ Hs) as (t & _ & Ht & ->). right. by exists t.
  - intros r. rewrite logout_requests.
    destruct (truthy_opt (cookies w !! "fe-chat-session")) eqn:Hs; [|by left].
    destruct (truthy_opt_inv _ Hs) as (t & _ & Ht & ->). right. by exists t.
Qed.

(** X14. Resolving never navigates, and only [setUserFromSession]
    touches the cookie: [refreshUser] and the initial load leave the
    cookie jar and the router as they were; [setUserFromSession] leaves
    the router as it was and writes the cookie once, without a max-age,
    whether or not the token resolves. *)
Theorem resolving_operations_frame (w : World) :
  (forall tok,
     cookies (exec (refreshUser tok) w) = cookies w /\
     cookieWrites (exec (refreshUser tok) w) = cookieWrites w /\
     navigation (exec (refreshUser tok) w) = navigation w) /\
  (cookies (exec initializeUser w) = cookies w /\
   cookieWrites (exec initializeUser w) = cookieWrites w /\
   navigation (exec initializeUser w) = navigation w) /\
  (forall session,
     cookieWrites (exec (setUserFromSession session) w) =
       mkCookieWrite "fe-chat-session" session None :: cookieWrites w /\
     navigation (exec (setUserFromSession session) w) = navigation w).
Proof.
  split; [|split].
  - intros tok. unfold exec. rewrite refreshUser_run.
    destruct (fetchUser_frame tok (exec (setIsLoading true) w))
      as (_ & _ & Hjar & Hwrites & Hnav).
    split; [exact Hjar|]. split; [exact Hwrites|exact Hnav].
  - unfold exec. rewrite initializeUser_run.
    destruct (fetchUser_frame None (exec (setIsLoading true) w))
      as (_ & _ & Hjar & Hwrites & Hnav).
    split; [exact Hjar|]. split; [exact Hwrites|exact Hnav].
  - intros session. unfold exec. rewrite setUserFromSession_run.
    destruct (fetchUser_frame (Some session)
                (exec (setCookie "fe-chat-session" session None)
                      (exec (setIsLoading true) w)))
      as (_ & _ & _ & Hwrites & Hnav).
    split; [exact Hwrites|exact Hnav].
Qed.

(** ** The [useUser] hook and the home page *)




(** X17. What the home page shows after [logout].  When the signout
    request was answered, with whatever status, or not sent, the page
    shows [Not logged in]; when it failed in transport, the page shows
    what it shows for the user that was signed in before. *)
Theorem HomeContent_after_logout (r : option string) (w : World) :
  let session := cookies w !! "fe-chat-session" in
  let reply := server (length (requests w)) (signout_request (str session)) in
  ((truthy_opt session = true -> exists res, reply = Responded res) ->
   HomeContent (controller (exec (logout r) w)) =
     HomeView (JStr "Not logged in")) /\
  (truthy_opt session = true -> reply = Rejected ->
   HomeContent (controller (exec (logout r) w)) =
     HomeContent (mkController (user w) false)).
Proof.
  cbv zeta. split.
  - intros Hreply.
    destruct (logout_completes r w Hreply) as (_ & Huser & _ & _ & Hl & _).
    unfold HomeContent, controller. cbn. by rewrite Huser, Hl.
  - intros Hsession Hreply.
    destruct (logout_rejected r w Hsession Hreply) as (_ & Huser & _ & Hl & _).
    unfold HomeContent, controller. cbn. by rewrite Huser, Hl.
Qed.

(** X18. What the home page shows after a session is adopted: when the
    account endpoint answers the request for a non-empty token with a
    2xx status and a user record carrying a truthy [email], the page
    shows that email. *)
Theorem HomeContent_after_adoption (T : string) (w : World) (res : Response)
    (fields record : list (string * json)) (email : json) :
  T <> "" ->
  server (length (requests w)) (account_request T) = Responded res ->
  ok res = true ->
  body res = Some (JObj fields) ->
  assoc "user" fields = Some (JObj record) ->
  assoc "email" record = Some email ->
  truthy email = true ->
  HomeContent (controller (exec (setUserFromSession T) w)) = HomeView email.
Proof.
  intros HT Hreply Hok Hbody Huser Hemail Htruthy.
  assert (HT' : truthy_string T = true) by (by destruct T).
  assert (Hu : user (exec (setUserFromSession T) w) = Some (JObj record)).
  { rewrite setUserFromSession_user. unfold resolved, effective_session.
    cbn. rewrite !HT'. cbn. fold (account_request T). rewrite Hreply. cbn.
    by rewrite Hok, Hbody, Huser, ?HT'. }
  assert (Hl : isLoading (exec (setUserFromSession T) w) = false).
  { unfold exec. by rewrite setUserFromSession_run. }
  unfold HomeContent, controller. cbn. rewrite Hl, Hu. cbn.
  by rewrite Hemail, Htruthy.
Qed.

(** X6. A reload resolves the stored token again.  Mounted on a cookie
    jar that holds a non-empty token, the provider sends the one account
    request for that token and ends, not loading, with the user the
    answer reports; a transport failure or a non-2xx status ends with
    [user = null] and the cookie still in place. *)
Theorem initial_resolution_with_token (jar : gmap string string)
    (T : string) :
  let reply := server 0 (account_request T) in
  let w' := exec initializeUser (mount jar) in
  jar !! "fe-chat-session" = Some T ->
  T <> "" ->
  requests w' = [account_request T] /\
  isLoading w' = false /\
  cookies w' = jar /\
  (forall res fields u,
     reply = Responded res -> ok res = true ->
     body res = Some (JObj fields) -> assoc "user" fields = Some u ->
     truthy u = true -> user w' = Some u) /\
  (reply = Rejected \/ (exists res, reply = Responded res /\ ok res = false) ->
   user w' = None).
Proof.
  cbv zeta. intros Hjar HT.
  assert (Htruthy : truthy_string T = true) by (by destruct T).
  assert (Hs : effective_session None (mount jar) = Some T) by done.
  split; [|split; [|split; [|split]]].
  - rewrite initializeUser_requests, Hs. cbn. by rewrite Htruthy.
  - unfold exec. by rewrite initializeUser_run.
  - unfold exec. rewrite initializeUser_run.
    destruct (fetchUser_frame None (exec (setIsLoading true) (mount jar)))
      as (_ & _ & Hcookies & _).
    etrans; [exact Hcookies|]. reflexivity.
  - intros res fields u Hreply Hok Hbody Hu Hut.
    rewrite initializeUser_user. unfold resolved. rewrite Hs. cbn.
    rewrite Htruthy, Hreply. cbn. rewrite Hok, Hbody, Hu. cbn.
    by rewrite Hut.
  - intros Hfail. rewrite initializeUser_user. unfold resolved.
    rewrite Hs. cbn. rewrite Htruthy.
    destruct Hfail as [-> | (res & -> & Hok)]; [done|].
    cbn. by rewrite Hok.
Qed.

End Provider.

(** X2. [logout] never looks at the origin of the page: the fallback
    [|| window.location.origin] in its [router.replace] sits behind the
    test of the same target, so the outcome of [logout] is the same
    under any two origins, and a [logout] without target stays on the
    page. *)
Theorem logout_ignores_origin (IAM_URL origin origin' : string)
    (server : nat -> Request -> FetchOutcome)
    (r : option string) (w : World) :
  logout IAM_URL origin server r w = logout IAM_URL origin' server r w.
Proof.
  unfold logout, try_finally, try_catch, bind.
  by destruct (truthy_opt r) eqn:Hr.
Qed.

(** ** Logout and the signout endpoint *)

(** C6. [logout] sends one POST to [{IAM_URL}/api/signout], with the
    stored token in the [session] header and the body
    [{ sessionId: 'current' }], exactly when a token (a non-empty cookie
    value) is stored, and no request otherwise.  The response is not
    looked at: whichever response the server gives, [logout] completes in
    the same way and in the same state. *)
Theorem logout_signout_request (IAM_URL origin : string)
    (server : nat -> Request -> FetchOutcome)
    (r : option string) (w : World) :
  let session := cookies w !! "fe-chat-session" in
  let post :=
    mkRequest POST (IAM_URL +:+ "/api/signout") [("session", str session)]
              (Some (JObj [("sessionId", JStr "current")])) in
  (truthy_opt session = true ->
     requests (exec (logout IAM_URL origin server r) w) = post :: requests w) /\
  (truthy_opt session = false ->
     requests (exec (logout IAM_URL origin server r) w) = requests w) /\
  (forall (server' : nat -> Request -> FetchOutcome) (res res' : Response),
     server (length (requests w)) post = Responded res ->
     server' (length (requests w)) post = Responded res' ->
     logout IAM_URL origin server r w = logout IAM_URL origin server' r w).
Proof.
  cbv zeta. split; [|split].
  - intros Hsession. by rewrite logout_requests, Hsession.
  - intros Hsession. by rewrite logout_requests, Hsession.
  - intros server' res res' Hres Hres'.
    unfold logout, try_finally, try_catch, bind, fetch, signout_request.
    cbn. destruct (truthy_opt (cookies w !! "fe-chat-session")); [|done].
    cbn. by rewrite Hres, Hres'.
Qed.

Lemma logout_signout_request_witness :
  requests (exec (logout sample_iam sample_origin server_up None) signed_in) =
    [mkRequest POST "https://iam.example/api/signout" [("session", "abc")]
               (Some (JObj [("sessionId", JStr "current")]))] /\
  logout sample_iam sample_origin server_up None signed_in =
    logout sample_iam sample_origin server_failing None signed_in.
Proof.
  destruct (logout_signout_request sample_iam sample_origin server_up
              None signed_in) as (Hsent & _ & Hsame).
  split.
  - apply Hsent. reflexivity.
  - apply (Hsame server_failing
                 (mkResponse 200 (Some (JObj [("user", sample_user)])))
                 (mkResponse 500 None)); reflexivity.
Defined.

(** C1 does not hold on the code when the signout request fails in
    transport.  With [sample_user] signed in under the cookie [abc] and
    the network down, [logout] completes normally through its [catch]
    block: the error is logged, [user] is still [sample_user] and the
    cookie still holds [abc]; only [isLoading] is reset.  On a status 200
    and on a status 500 the same call does clear both. *)
Theorem logout_network_error_keeps_session :
  let down := logout sample_iam sample_origin server_unreachable None in
  let up := logout sample_iam sample_origin server_up None in
  let failing := logout sample_iam sample_origin server_failing None in
  (result down signed_in = Normal tt /\
   user (exec down signed_in) = Some sample_user /\
   cookies (exec down signed_in) !! "fe-chat-session" = Some "abc" /\
   cookieWrites (exec down signed_in) = [] /\
   isLoading (exec down signed_in) = false /\
   console (exec down signed_in) = [("Logout error:", NetworkFailure)]) /\
  (user (exec up signed_in) = None /\
   cookies (exec up signed_in) !! "fe-chat-session" = None) /\
  (user (exec failing signed_in) = None /\
   cookies (exec failing signed_in) !! "fe-chat-session" = None).
Proof. vm_compute. repeat split. Qed.

(** ** Concrete runs *)


(** C7 fails when the empty string is supplied as the target: the
    browser is sent to the sign-in page with [redirectUrl] set to the
    origin, not to the supplied (empty) target. *)
Lemma login_empty_target_uses_origin :
  navigation (exec (login sample_iam sample_origin (Some "")) signed_out) =
    [Push "https://iam.example/auth/signin?redirectUrl=https://app.example"] /\
  navigation (exec (login sample_iam sample_origin (Some "")) signed_out) <>
    [Push (signin_url_as_claimed sample_iam sample_origin (Some ""))].
Proof. split; [reflexivity|]. vm_compute. discriminate. Qed.

Lemma fetchUser_never_throws_witness :
  result (fetchUser sample_iam server_up (Some "abc")) (mount ∅) =
    Normal (Some sample_user) /\
  result (fetchUser sample_iam server_anonymous (Some "abc")) (mount ∅) =
    Normal None /\
  result (fetchUser sample_iam server_failing None) signed_in = Normal None /\
  result (fetchUser sample_iam server_unreachable None) signed_in =
    Normal None /\
  result (fetchUser sample_iam server_up None) signed_out = Normal None.
Proof.
  split; [|split; [|split; [|split]]].
  - destruct (fetchUser_never_throws sample_iam server_up (Some "abc")
                (mount ∅)) as (_ & _ & _ & _ & _ & _ & Huser & _).
    apply (Huser (mkResponse 200 (Some (JObj [("user", sample_user)])))
                 [("user", sample_user)]); reflexivity.
  - destruct (fetchUser_never_throws sample_iam server_anonymous (Some "abc")
                (mount ∅)) as (_ & _ & _ & _ & _ & _ & _ & Hnull & _).
    apply (Hnull (mkResponse 200 (Some (JObj [("user", JNull)])))
                 [("user", JNull)]); reflexivity.
  - destruct (fetchUser_never_throws sample_iam server_failing None
                signed_in) as (_ & _ & _ & Hstatus & _).
    apply (Hstatus (mkResponse 500 None)); reflexivity.
  - destruct (fetchUser_never_throws sample_iam server_unreachable None
                signed_in) as (_ & _ & Hdown & _).
    apply Hdown; reflexivity.
  - destruct (fetchUser_never_throws sample_iam server_up None signed_out)
      as (_ & Hnone & _).
    apply Hnone; reflexivity.
Defined.

Lemma initial_resolution_without_token_witness :
  truthy_opt ((∅ : gmap string string) !! "fe-chat-session") = false /\
  user (exec (initializeUser sample_iam server_up) (mount ∅)) = None /\
  requests (exec (initializeUser sample_iam server_up) (mount ∅)) = [].
Proof.
  split; [reflexivity|].
  destruct (initial_resolution_without_token sample_iam server_up ∅)
    as (_ & Huser & _ & Hrequests); [reflexivity|].
  split; assumption.
Defined.

(** The scenario of the specification: token [abc] arrives while the
    cookie is empty, and the account endpoint knows the user. *)
Lemma setUserFromSession_adopts_witness :
  cookies (exec (setUserFromSession sample_iam server_up "abc") (mount ∅))
    !! "fe-chat-session" = Some "abc" /\
  user (exec (setUserFromSession sample_iam server_up "abc") (mount ∅)) =
    Some sample_user.
Proof.
  destruct (setUserFromSession_adopts sample_iam server_up "abc" (mount ∅))
    as (_ & Hcookie & Hresolved).
  split; [exact Hcookie|].
  destruct (Hresolved (mkResponse 200 (Some (JObj [("user", sample_user)])))
                      (JObj [("user", sample_user)]))
    as (Huser & _); [discriminate | reflexivity ..|].
  apply (Huser [("user", sample_user)] sample_user); reflexivity.
Defined.

Lemma refreshUser_twice_witness :
  user (exec (refreshUser sample_iam server_up None)
          (exec (refreshUser sample_iam server_up None) signed_in)) =
    user (exec (refreshUser sample_iam server_up None) signed_in) /\
  user (exec (refreshUser sample_iam server_up None) signed_in) =
    Some sample_user.
Proof.
  destruct (refreshUser_twice sample_iam server_up None signed_in
              (mkResponse 200 (Some (JObj [("user", sample_user)])))
              (mkResponse 200 (Some (JObj [("user", sample_user)])))
              [("user", sample_user)] [("user", sample_user)])
    as (_ & Hfirst & Hsecond).
  - intros _. repeat split; reflexivity.
  - split; [exact Hsecond|exact Hfirst].
Defined.

Lemma logout_without_token_witness :
  truthy_opt (cookies signed_out !! "fe-chat-session") = false /\
  requests (exec (logout sample_iam sample_origin server_unreachable None)
                 signed_out) = [] /\
  console (exec (logout sample_iam sample_origin server_unreachable None)
                signed_out) = [] /\
  isLoading (exec (logout sample_iam sample_origin server_unreachable None)
                  signed_out) = false.
Proof.
  split; [reflexivity|].
  destruct (logout_without_token sample_iam sample_origin server_unreachable
              None signed_out)
    as (_ & Hrequests & Hconsole & _ & _ & _ & Hloading); [reflexivity|].
  repeat split; assumption.
Defined.

(** ** Concrete runs of the further properties *)

Lemma logout_navigation_witness :
  navigation (exec (logout sample_iam sample_origin server_failing
                           (Some "/bye")) signed_in) = [Replace "/bye"] /\
  navigation (exec (logout sample_iam sample_origin server_up None)
                   signed_in) = [] /\
  navigation (exec (logout sample_iam sample_origin server_unreachable
                           (Some "/bye")) signed_in) = [].
Proof.
  split; [|split].
  - destruct (logout_navigation sample_iam sample_origin server_failing
                (Some "/bye") signed_in) as (Hgo & _ & _).
    apply Hgo; [reflexivity|]. right. by eexists.
  - destruct (logout_navigation sample_iam sample_origin server_up
                None signed_in) as (_ & Hstay & _).
    apply Hstay. reflexivity.
  - destruct (logout_navigation sample_iam sample_origin server_unreachable
                (Some "/bye") signed_in) as (_ & _ & Hdown).
    apply Hdown; reflexivity.
Defined.

Lemma refreshUser_override_witness :
  requests (exec (refreshUser sample_iam server_up (Some "xyz")) signed_in) =
    [mkRequest GET "https://iam.example/api/account" [("session", "xyz")]
               None] /\
  cookies (exec (refreshUser sample_iam server_up (Some "xyz")) signed_in)
    = cookies signed_in.
Proof.
  destruct (refreshUser_override sample_iam server_up (Some "xyz") signed_in)
    as (Hsent & Hjar & _); [reflexivity|].
  split; [exact Hsent|exact Hjar].
Defined.

Lemma setUserFromSession_unresolved_witness :
  cookies (exec (setUserFromSession sample_iam server_unreachable "abc")
                (mount ∅)) !! "fe-chat-session" = Some "abc" /\
  user (exec (setUserFromSession sample_iam server_unreachable "abc")
             (mount ∅)) = None.
Proof.
  destruct (setUserFromSession_unresolved sample_iam server_unreachable
              "abc" (mount ∅)) as (Hjar & Huser & _);
    [discriminate | by left |].
  split; [exact Hjar|exact Huser].
Defined.

Lemma nothing_sent_after_logout_witness :
  requests (exec (refreshUser sample_iam server_up None)
                 (exec (logout sample_iam sample_origin server_up None)
                       signed_in)) =
    requests (exec (logout sample_iam sample_origin server_up None)
                   signed_in) /\
  user (exec (refreshUser sample_iam server_up None)
             (exec (logout sample_iam sample_origin server_up None)
                   signed_in)) = None.
Proof.
  destruct (nothing_sent_after_logout sample_iam sample_origin server_up
              None signed_in) as (Hrefresh & _).
  - intros _. by eexists.
  - exact Hrefresh.
Defined.

Lemma adopted_token_is_read_back_witness :
  requests (exec (refreshUser sample_iam server_up None)
                 (exec (setUserFromSession sample_iam server_up "abc")
                       (mount ∅))) =
    [account_request sample_iam "abc"; account_request sample_iam "abc"].
Proof.
  destruct (adopted_token_is_read_back sample_iam sample_origin server_up
              "abc" (mount ∅)) as (Hrefresh & _); [discriminate|].
  exact Hrefresh.
Defined.

Lemma fetchUser_logs_failures_witness :
  console (exec (fetchUser sample_iam server_failing None) signed_in) =
    [("Error fetching user:", Error "Failed to fetch user")] /\
  console (exec (fetchUser sample_iam server_unreachable None) signed_in) =
    [("Error fetching user:", NetworkFailure)] /\
  console (exec (fetchUser sample_iam server_up None) signed_in) = [].
Proof.
  split; [|split].
  - destruct (fetchUser_logs_failures sample_iam server_failing None
                signed_in) as (_ & _ & Hstatus & _).
    apply (Hstatus (mkResponse 500 None)); reflexivity.
  - destruct (fetchUser_logs_failures sample_iam server_unreachable None
                signed_in) as (_ & Hdown & _).
    apply Hdown; reflexivity.
  - destruct (fetchUser_logs_failures sample_iam server_up None signed_in)
      as (_ & _ & _ & _ & _ & Hquiet).
    apply (Hquiet (mkResponse 200 (Some (JObj [("user", sample_user)])))
                  (JObj [("user", sample_user)]));
      reflexivity || discriminate.
Defined.

Lemma user_is_null_or_truthy_witness :
  user_ok signed_in /\
  user_ok (exec (logout sample_iam sample_origin server_unreachable None)
                signed_in).
Proof.
  assert (Hok : user_ok signed_in) by reflexivity.
  split; [exact Hok|].
  destruct (user_is_null_or_truthy sample_iam sample_origin
              server_unreachable signed_in) as (_ & _ & _ & Hkeep).
  exact (proj2 (Hkeep Hok None)).
Defined.


Lemma HomeContent_after_logout_witness :
  HomeContent (controller (exec (logout sample_iam sample_origin
                                        server_failing None) signed_in)) =
    HomeView (JStr "Not logged in") /\
  HomeContent (controller (exec (logout sample_iam sample_origin
                                        server_unreachable None) signed_in)) =
    HomeView (JStr "a@b.com").
Proof.
  split.
  - destruct (HomeContent_after_logout sample_iam sample_origin
                server_failing None signed_in) as (Hout & _).
    apply Hout. intros _. by eexists.
  - destruct (HomeContent_after_logout sample_iam sample_origin
                server_unreachable None signed_in) as (_ & Hstill).
    apply Hstill; reflexivity.
Defined.

Lemma HomeContent_after_adoption_witness :
  HomeContent (controller (exec (setUserFromSession sample_iam server_up
                                   "abc") (mount ∅))) =
    HomeView (JStr "a@b.com").
Proof.
  apply (HomeContent_after_adoption sample_iam server_up "abc" (mount ∅)
           (mkResponse 200 (Some (JObj [("user", sample_user)])))
           [("user", sample_user)]
           [("$id", JStr "1"); ("$createdAt", JStr "2025-01-01");
            ("$updatedAt", JStr "2025-01-02"); ("email", JStr "a@b.com");
            ("emailVerification", JBool true)]
           (JStr "a@b.com"));
    reflexivity || discriminate.
Defined.

Lemma initial_resolution_with_token_witness :
  requests (exec (initializeUser sample_iam server_up)
                 (mount {[ "fe-chat-session" := "abc" ]})) =
    [account_request sample_iam "abc"] /\
  user (exec (initializeUser sample_iam server_up)
             (mount {[ "fe-chat-session" := "abc" ]})) = Some sample_user.
Proof.
  destruct (initial_resolution_with_token sample_iam server_up
              {[ "fe-chat-session" := "abc" ]} "abc")
    as (Hsent & _ & _ & Huser & _); [reflexivity|discriminate|].
  split; [exact Hsent|].
  apply (Huser (mkResponse 200 (Some (JObj [("user", sample_user)])))
               [("user", sample_user)] sample_user); reflexivity.
Defined.
